(** * poe_flipper: the clipboard item evaluator of [Flipper Script/flip.py]

    The script watches the clipboard, splits the pasted text into token
    lines, keeps the lines that matter for the item type, pulls numbers out
    of them and prints an estimate.  This file embeds the pure part of every
    function of [flip.py] and the driver loop as a function from the stream
    of clipboard events to the printed lines.

    Modelling choices, all of them visible in the definitions:
    - a Python [str] is a [string]; a character is one of the code points
      0..255 (larger code points are outside the model);
    - a Python [int] is a [Z]; a Python [float] is the rational it stands
      for, in lowest terms.  Every float operation rounds its exact result
      with a function [round] that the arithmetic takes as a parameter:
      [binary64] rounds to 53 significant bits, ties to even, as the
      interpreter does (the exponent range is unbounded: overflow, underflow
      and the sign of zero are not modelled); [exact] does not round;
    - an exception is a value of [exn]; code that can raise returns a
      [result]. *)

From Stdlib Require Import ZArith NArith QArith Qreduction Qround Qpower Lqa.
From Stdlib Require Import List String Ascii Bool Lia.
Import ListNotations.

Local Open Scope string_scope.
Local Open Scope bool_scope.

(** ** Exceptions *)

Inductive exn : Type :=
| IndexError          (* list index out of range *)
| ValueError          (* int() on a malformed literal, or a bad unpacking *)
| ZeroDivisionError.  (* division by zero *)

Inductive result (A : Type) : Type :=
| Ok (a : A)
| Raise (e : exn).

Arguments Ok {A} a.
Arguments Raise {A} e.

Definition bind {A B : Type} (r : result A) (k : A -> result B) : result B :=
  match r with
  | Ok a => k a
  | Raise e => Raise e
  end.

Notation "x <- r ;; k" := (bind r (fun x => k))
  (at level 61, r at next level, right associativity).
Notation "' p <- r ;; k" := (bind r (fun x => let p := x in k))
  (at level 61, p pattern, r at next level, right associativity).

(** ** Text: the string operations the script uses *)

Module Text.

Definition code (c : ascii) : N := N_of_ascii c.

(** [\d] on the code points 0..255: the ten ASCII digits. *)
Definition is_digit (c : ascii) : bool :=
  N.leb 48 (code c) && N.leb (code c) 57.

(** [str.isspace] on the code points 0..255. *)
Definition is_space (c : ascii) : bool :=
  let n := code c in
  (N.leb 9 n && N.leb n 13) || (N.leb 28 n && N.leb n 32)
  || N.eqb n 133 || N.eqb n 160.

(** [re.sub] of the complement class by the empty string: keep the
    characters that satisfy [p]. *)
Fixpoint keep (p : ascii -> bool) (s : string) : string :=
  match s with
  | EmptyString => EmptyString
  | String c r => if p c then String c (keep p r) else keep p r
  end.

(** [re.search] of a one-character class. *)
Fixpoint any_char (p : ascii -> bool) (s : string) : bool :=
  match s with
  | EmptyString => false
  | String c r => p c || any_char p r
  end.

Fixpoint all_char (p : ascii -> bool) (s : string) : bool :=
  match s with
  | EmptyString => true
  | String c r => p c && all_char p r
  end.

Definition is_char (a : ascii) (c : ascii) : bool := Ascii.eqb c a.

Definition nonempty (s : string) : bool :=
  match s with
  | EmptyString => false
  | String _ _ => true
  end.

(** [pat in s] on strings. *)
Fixpoint contains (pat s : string) : bool :=
  String.prefix pat s ||
  match s with
  | EmptyString => false
  | String _ r => contains pat r
  end.

(** [s.split(sep)] for a one-character separator. *)
Fixpoint split_on (sep : ascii) (s : string) : list string :=
  match s with
  | EmptyString => [EmptyString]
  | String c r =>
      if Ascii.eqb c sep then EmptyString :: split_on sep r
      else match split_on sep r with
           | w :: ws => String c w :: ws
           | [] => [String c EmptyString]
           end
  end.

(** [s.split()]: the maximal runs of non-whitespace characters. *)
Fixpoint split_ws (s : string) : list string :=
  match s with
  | EmptyString => []
  | String c r =>
      if is_space c then split_ws r
      else match r with
           | EmptyString => [String c EmptyString]
           | String c' _ =>
               if is_space c' then String c EmptyString :: split_ws r
               else match split_ws r with
                    | w :: ws => String c w :: ws
                    | [] => [String c EmptyString]
                    end
           end
  end.

Fixpoint lstrip (s : string) : string :=
  match s with
  | EmptyString => EmptyString
  | String c r => if is_space c then lstrip r else s
  end.

Fixpoint rstrip (s : string) : string :=
  match s with
  | EmptyString => EmptyString
  | String c r =>
      match rstrip r with
      | EmptyString => if is_space c then EmptyString else String c EmptyString
      | r' => String c r'
      end
  end.

Definition strip (s : string) : string := rstrip (lstrip s).

(** [t in sublist] for a list of strings. *)
Definition mem (t : string) (l : list string) : bool :=
  existsb (String.eqb t) l.

(** *** [int(s)]

    Only ever applied to what [re.sub] leaves of a string: digits, or
    digits and hyphens.  On such a string [int] accepts a non-empty run of
    digits, optionally preceded by one minus sign.  The number of digits is
    not bounded (an interpreter may be configured with a limit). *)

Definition digit_val (c : ascii) : Z := Z.of_N (code c) - 48.

Fixpoint dec_acc (acc : Z) (s : string) : Z :=
  match s with
  | EmptyString => acc
  | String c r => dec_acc (10 * acc + digit_val c) r
  end.

Definition dec (s : string) : Z := dec_acc 0 s.

Definition digits_only (s : string) : bool := nonempty s && all_char is_digit s.

Definition py_int (s : string) : result Z :=
  match s with
  | String "-" r => if digits_only r then Ok (- dec r)%Z else Raise ValueError
  | _ => if digits_only s then Ok (dec s) else Raise ValueError
  end.

(** *** [repr] of a string and [str] of a list of strings *)

Definition squote : ascii := "'"%char.
Definition dquote : ascii := ascii_of_N 34.
Definition backslash : ascii := "\"%char.

Definition hex_digit (n : N) : ascii :=
  if N.ltb n 10 then ascii_of_N (48 + n) else ascii_of_N (87 + n).

Definition hex_escape (c : ascii) : string :=
  String backslash (String "x"
    (String (hex_digit (code c / 16)) (String (hex_digit (code c mod 16)) ""))).

(** [str.isprintable] of a single character, on the code points 0..255. *)
Definition is_printable (c : ascii) : bool :=
  let n := code c in
  (N.leb 32 n && N.ltb n 127) || (N.leb 161 n && negb (N.eqb n 173)).

Definition repr_char (quote c : ascii) : string :=
  if Ascii.eqb c quote || Ascii.eqb c backslash then String backslash (String c "")
  else if N.eqb (code c) 9 then "\t"
  else if N.eqb (code c) 10 then "\n"
  else if N.eqb (code c) 13 then "\r"
  else if is_printable c then String c ""
  else hex_escape c.

Fixpoint repr_body (quote : ascii) (s : string) : string :=
  match s with
  | EmptyString => EmptyString
  | String c r => repr_char quote c ++ repr_body quote r
  end.

(** Double quotes are used when the string has a single quote and no double
    quote, single quotes otherwise. *)
Definition repr_quote (s : string) : ascii :=
  if any_char (is_char squote) s && negb (any_char (is_char dquote) s)
  then dquote else squote.

Definition py_repr (s : string) : string :=
  let q := repr_quote s in
  String q (repr_body q s ++ String q "").

Fixpoint join (sep : string) (l : list string) : string :=
  match l with
  | [] => ""
  | [x] => x
  | x :: r => x ++ sep ++ join sep r
  end.

Definition str_of_list (l : list string) : string :=
  "[" ++ join ", " (map py_repr l) ++ "]".

End Text.

Import Text.

(** ** extract_stats: tokenising, classifying and filtering *)

Definition newline : ascii := ascii_of_N 10.

(** [[line.strip().split() for line in data_block.split('\n') if line.strip()]] *)
Definition token_lines (data_block : string) : list (list string) :=
  map (fun line => split_ws (strip line))
      (filter (fun line => nonempty (strip line)) (split_on newline data_block)).

Definition has_token (t : string) (data : list (list string)) : bool :=
  existsb (mem t) data.

(** The four item-type flags [esBool, chestBool, martBool, eleBool]. *)
Record bools : Type := mkBools {
  esBool : bool;
  chestBool : bool;
  martBool : bool;
  eleBool : bool
}.

Definition classify (data : list (list string)) : bools :=
  {| esBool := has_token "Energy" data;
     chestBool := has_token "Body" data;
     martBool := has_token "Damage:" data;
     eleBool :=
       existsb (fun sublist =>
                  existsb (fun damage_type => mem damage_type sublist)
                          ["Fire"; "Cold"; "Lightning"; "Elemental"]) data |}.

Definition keep_energy (sublist : list string) : bool :=
  (mem "Energy" sublist && mem "Shield" sublist || mem "Shield:" sublist)
  && negb (mem "Recharge" sublist) && negb (mem "maximum" sublist).

Definition keep_weapon_ele (sublist : list string) : bool :=
  mem "Damage:" sublist || mem "Attacks" sublist
  || mem "increased" sublist && negb (mem "Adds" sublist).

Definition keep_weapon_phys (sublist : list string) : bool :=
  (mem "Damage:" sublist && mem "Physical" sublist) || mem "Attacks" sublist
  || mem "increased" sublist && negb (mem "Adds" sublist).

Definition keep_evasion (sublist : list string) : bool :=
  mem "Evasion" sublist && negb (mem "to" sublist).

(** The [if esBool / elif martBool / else] cascade of [extract_stats]. *)
Definition filter_lines (b : bools) (data : list (list string))
  : list (list string) :=
  if esBool b then filter keep_energy data
  else if martBool b then
    if eleBool b then filter keep_weapon_ele data
    else filter keep_weapon_phys data
  else filter keep_evasion data.

(** The part of [extract_stats] after the clipboard has delivered
    [data_block]: the kept lines and the flags. *)
Definition extract_stats (data_block : string) : list (list string) * bools :=
  let data := token_lines data_block in
  let b := classify data in
  (filter_lines b data, b).

(** ** Rounding *)

(** The integer nearest to [x], the even one of the two when [x] is half
    way. *)
Definition rne (x : Q) : Z :=
  let f := Qfloor x in
  match ((x - inject_Z f) ?= (1 # 2))%Q with
  | Lt => f
  | Gt => (f + 1)%Z
  | Eq => if Z.even f then f else (f + 1)%Z
  end.

(** For [x > 0], the exponent [k] with [2^k <= x < 2^(k+1)]. *)
Definition ilog2 (x : Q) : Z :=
  let k := (Z.log2 (Qnum x) - Z.log2 (Zpos (Qden x)))%Z in
  if Qle_bool (2 ^ k) x then k else (k - 1)%Z.

(** For [x > 0], the nearest number with a significand of 53 bits. *)
Definition round53 (x : Q) : Q :=
  let e := (ilog2 x - 52)%Z in
  (inject_Z (rne (x * 2 ^ (- e))) * 2 ^ e)%Q.

(** Rounding to the nearest binary64 number, ties to even. *)
Definition binary64 (q : Q) : Q :=
  Qred (match Qnum q with
        | Z0 => 0
        | Zpos _ => round53 q
        | Zneg _ => - round53 (- q)
        end).

(** No rounding: exact arithmetic. *)
Definition exact (q : Q) : Q := Qred q.

(** ** Numbers *)

Inductive num : Type :=
| PInt (z : Z)      (* a Python int *)
| PFloat (q : Q).   (* a Python float, as the rational it stands for *)

(** The exact value of a number. *)
Definition val (n : num) : Q :=
  match n with
  | PInt z => inject_Z z
  | PFloat q => q
  end.

Section Arithmetic.

(** How a float operation rounds its exact result. *)
Variable round : Q -> Q.

(** A float literal such as [0.4]. *)
Definition float_lit (q : Q) : num := PFloat (round q).

(** The float operand that an int or a float becomes in a float operation. *)
Definition to_float (n : num) : Q :=
  match n with
  | PInt z => round (inject_Z z)
  | PFloat q => q
  end.

(** [a + b]: an int when both are ints, a float otherwise. *)
Definition num_add (a b : num) : num :=
  match a, b with
  | PInt x, PInt y => PInt (x + y)
  | _, _ => PFloat (round (to_float a + to_float b))
  end.

(** [a * b]. *)
Definition num_mul (a b : num) : num :=
  match a, b with
  | PInt x, PInt y => PInt (x * y)
  | _, _ => PFloat (round (to_float a * to_float b))
  end.

(** [b == 0], the test of a divisor. *)
Definition is_zero (n : num) : bool :=
  match n with
  | PInt z => Z.eqb z 0
  | PFloat q => Qeq_bool q 0
  end.

(** The float [a / b] for a divisor that is not zero.  The quotient of two
    ints is rounded once, from the exact quotient. *)
Definition quotient (a b : num) : Q :=
  match a, b with
  | PInt x, PInt y => round (inject_Z x / inject_Z y)
  | _, _ => round (to_float a / to_float b)
  end.

(** [a / b]: true division, always a float; raises on a zero divisor. *)
Definition truediv (a b : num) : result num :=
  if is_zero b then Raise ZeroDivisionError
  else Ok (PFloat (quotient a b)).

(** [l[i]] *)
Definition index {A : Type} (l : list A) (i : nat) : result A :=
  match nth_error l i with
  | Some a => Ok a
  | None => Raise IndexError
  end.

(** [sum(l)], adding from the left, starting from the int 0. *)
Definition py_sum (l : list num) : num := fold_left num_add l (PInt 0).

(** A [for] loop whose body may raise, threading the loop state. *)
Fixpoint for_each {S X : Type} (body : S -> X -> result S) (xs : list X) (s : S)
  : result S :=
  match xs with
  | [] => Ok s
  | x :: r => s' <- body s x;; for_each body r s'
  end.

(** ** The extractors

    Both extractors call [str(item)] on every element of their argument.
    [main] passes them the kept lines, so an element is a list of tokens and
    [str] renders the whole line; an element that is already a string is
    left as it is. *)

Inductive item : Type :=
| Tok (s : string)
| Line (tokens : list string).

Definition py_str (it : item) : string :=
  match it with
  | Tok s => s
  | Line tokens => str_of_list tokens
  end.

Definition percent : ascii := "%"%char.
Definition hyphen : ascii := "-"%char.

(** The body of the loop of [extract_armor]. *)
Definition armor_step (numbers : list num) (it : item) : result (list num) :=
  let item := py_str it in
  if any_char is_digit item then
    let number := keep is_digit item in
    if any_char (is_char percent) item then
      n <- py_int number;;
      x <- truediv (PInt n) (PInt 100);;
      Ok (numbers ++ [x])%list
    else
      n <- py_int number;;
      Ok (numbers ++ [PInt n])%list
  else Ok numbers.

Definition extract_armor (sublist : list item) : result (list num) :=
  for_each armor_step sublist [].

(** [re.findall(r'(\d+-\d+)', s)]: the leftmost, non-overlapping matches of
    a run of digits, a hyphen and a run of digits, both runs maximal.  The
    scanner remembers how much of a match it has seen. *)
Inductive scan : Type :=
| Idle
| First (d1 : string)
| Hyphen (d1 : string)
| Second (d1 d2 : string).

Definition snoc (s : string) (c : ascii) : string := s ++ String c "".

Fixpoint findall_from (st : scan) (s : string) : list string :=
  match s with
  | EmptyString =>
      match st with
      | Second d1 d2 => [d1 ++ "-" ++ d2]
      | _ => []
      end
  | String c r =>
      match st with
      | Idle =>
          if is_digit c then findall_from (First (String c "")) r
          else findall_from Idle r
      | First d1 =>
          if is_digit c then findall_from (First (snoc d1 c)) r
          else if is_char hyphen c then findall_from (Hyphen d1) r
          else findall_from Idle r
      | Hyphen d1 =>
          if is_digit c then findall_from (Second d1 (String c "")) r
          else findall_from Idle r
      | Second d1 d2 =>
          if is_digit c then findall_from (Second d1 (snoc d2 c)) r
          else (d1 ++ "-" ++ d2) :: findall_from Idle r
      end
  end.

Definition findall_ranges (s : string) : list string := findall_from Idle s.

(** [start, end = map(int, s.split('-'))] *)
Definition unpack_range (s : string) : result (Z * Z) :=
  match split_on hyphen s with
  | [a; b] => start <- py_int a;; end_ <- py_int b;; Ok (start, end_)
  | _ => Raise ValueError
  end.

(** The dictionary [numbers] of [extract_weapon]. *)
Record weapon_numbers : Type := mkWeapon {
  physical : list num;
  elemental : list num;
  speed : list num
}.

Definition append_physical (n : weapon_numbers) (x : num) : weapon_numbers :=
  {| physical := (physical n ++ [x])%list; elemental := elemental n; speed := speed n |}.
Definition append_elemental (n : weapon_numbers) (x : num) : weapon_numbers :=
  {| physical := physical n; elemental := (elemental n ++ [x])%list; speed := speed n |}.
Definition append_speed (n : weapon_numbers) (x : num) : weapon_numbers :=
  {| physical := physical n; elemental := elemental n; speed := (speed n ++ [x])%list |}.

(** [mean += (start + end) / 2] for one matched range. *)
Definition add_range (mean : num) (range : string) : result num :=
  '(start, end_) <- unpack_range range;;
  m <- truediv (PInt (start + end_)) (PInt 2);;
  Ok (num_add mean m).

(** The body of the loop of [extract_weapon]. *)
Definition weapon_step (numbers : weapon_numbers) (it : item)
  : result weapon_numbers :=
  let item := py_str it in
  if any_char is_digit item then
    if contains "Elemental" item && contains "-" item then
      let ranges := findall_ranges item in
      mean <- for_each add_range ranges (PInt 0);;
      Ok (append_elemental numbers mean)
    else
      let number := keep (fun c => is_digit c || is_char hyphen c) item in
      if any_char (is_char percent) item then
        if contains "Physical" item then
          n <- py_int number;;
          x <- truediv (PInt n) (PInt 100);;
          Ok (append_physical numbers x)
        else Ok numbers
      else if contains "-" item then
        '(start, end_) <- unpack_range number;;
        mean <- truediv (PInt (start + end_)) (PInt 2);;
        if contains "Damage" item && contains "Physical" item then
          Ok (append_physical numbers mean)
        else if contains "Damage" item
                && existsb (fun d => contains d item) ["Fire"; "Cold"; "Lightning"]
        then Ok (append_elemental numbers mean)
        else Ok numbers
      else if contains "Second:" item then
        n <- py_int number;;
        x <- truediv (PInt n) (PInt 100);;
        Ok (append_speed numbers x)
      else Ok numbers
  else Ok numbers.

(** The final [if not numbers: return [0]] never fires: a dictionary with
    three keys is true. *)
Definition extract_weapon (sublist : list item) : result weapon_numbers :=
  for_each weapon_step sublist {| physical := []; elemental := []; speed := [] |}.

(** ** The evaluators *)

Definition flippid_armor (numbers : list num) (check : bool) : result num :=
  let fac := if check then float_lit 0.4 else float_lit 0.2 in
  '(base, increase) <-
     (if Nat.eqb (List.length numbers) 2
      then match numbers with
           | [b; i] => Ok (b, i)
           | _ => Raise ValueError
           end
      else n0 <- index numbers 0;; Ok (n0, PInt 0));;
  q <- truediv base (num_add increase (PInt 1));;
  Ok (num_mul (num_mul q (num_add (num_add increase (PInt 1)) fac))
              (float_lit 1.2)).

Definition flippid_mart (numbers : weapon_numbers) : result (num * num * num) :=
  let ele := match elemental numbers with
             | [] => PInt 0
             | _ => py_sum (elemental numbers)
             end in
  atk <- index (speed numbers) 0;;
  increase <- (if Nat.ltb 1 (List.length (physical numbers))
               then index (physical numbers) 1
               else Ok (PInt 0));;
  dmg <- index (physical numbers) 0;;
  let edps := num_mul ele atk in
  q <- truediv dmg (num_add increase (PInt 1));;
  let pdps :=
    num_mul (num_mul (num_mul q (num_add (num_add increase (PInt 1))
                                         (float_lit 0.4)))
                     (float_lit 1.2)) atk in
  let tot := num_add edps pdps in
  Ok (pdps, edps, tot).

(** ** The driver loop

    What the script prints, one constructor per [print] call. *)

Inductive output : Type :=
| Waiting                                   (* 'Waiting for new input...' *)
| ExtractedBlock (data_block : string)      (* 'Extracted data block: ...' *)
| PrintData (data : list (list string))     (* print(data) *)
| PrintNumbers (numbers : list num)         (* print(extracted_numbers) *)
| ResultDPS (tot ele phys : num)            (* 'Expected result DPS: ...' *)
| ResultChest (r : num)                     (* 'Expected result (Chest): ...' *)
| ResultOther (r : num)                     (* 'Expected result (Other): ...' *)
| Divider                                   (* the dashed line *)
| PrintError (e : exn)                      (* 'An error occurred: ...' *)
| ExitedByUser.                             (* 'Program exited by user.', exit 0 *)

(** Printing code that may raise: the lines printed so far and the outcome. *)
Definition io (A : Type) : Type := (list output * result A)%type.

Definition io_bind {A B : Type} (m : io A) (k : A -> io B) : io B :=
  match m with
  | (out, Ok a) => let '(out', r) := k a in ((out ++ out')%list, r)
  | (out, Raise e) => (out, Raise e)
  end.

Definition print (o : output) : io unit := ([o], Ok tt).
Definition lift {A : Type} (r : result A) : io A := ([], r).

Notation "x <~ m ;; k" := (io_bind m (fun x => k))
  (at level 61, m at next level, right associativity).
Notation "' p <~ m ;; k" := (io_bind m (fun x => let p := x in k))
  (at level 61, p pattern, m at next level, right associativity).

(** [extract_stats] with its two prints, once [monitor_clipboard] has
    returned [data_block]. *)
Definition extract_stats_io (data_block : string)
  : io (list (list string) * bools) :=
  _ <~ print Waiting;;
  _ <~ print (ExtractedBlock data_block);;
  lift (Ok (extract_stats data_block)).

(** The body of the [try] of [main].  The test [data is None] is never true
    and is left out. *)
Definition main_try (data_block : string) : io unit :=
  '(data, checks) <~ extract_stats_io data_block;;
  _ <~ print (PrintData data);;
  _ <~ (if martBool checks then
          extracted_numbers <~ lift (extract_weapon (map Line data));;
          '(phys, ele, tot) <~ lift (flippid_mart extracted_numbers);;
          print (ResultDPS tot ele phys)
        else if chestBool checks then
          extracted_numbers <~ lift (extract_armor (map Line data));;
          _ <~ print (PrintNumbers extracted_numbers);;
          result <~ lift (flippid_armor extracted_numbers true);;
          print (ResultChest result)
        else
          extracted_numbers <~ lift (extract_armor (map Line data));;
          _ <~ print (PrintNumbers extracted_numbers);;
          result <~ lift (flippid_armor extracted_numbers false);;
          print (ResultOther result));;
  print Divider.

(** One turn of the [while True] loop: the [try] and its
    [except Exception as e: print(...)]. *)
Definition cycle (data_block : string) : list output :=
  match main_try data_block with
  | (out, Ok _) => out
  | (out, Raise e) => (out ++ [PrintError e])%list
  end.

(** What happens while the script waits: the clipboard changes, or the user
    interrupts. *)
Inductive event : Type :=
| Clipboard (data_block : string)
| KeyboardInterrupt.

(** The loop over the events that arrive; when they run out the script is
    waiting in [monitor_clipboard]. *)
Fixpoint main (events : list event) : list output :=
  match events with
  | [] => [Waiting]
  | KeyboardInterrupt :: _ => [Waiting; ExitedByUser]
  | Clipboard data_block :: rest => (cycle data_block ++ main rest)%list
  end.

End Arithmetic.

(** ** Definitions used to state the properties *)






(** The blocks of the two worked examples. *)
Definition evasion_block : string := "Evasion Rating: 150 (+20%)".

Definition weapon_block : string :=
  "Physical Damage: 10-20" ++ String newline "Attacks per Second: 150".

(** A block with an energy line and a weapon line. *)
Definition energy_weapon_block : string :=
  "Energy" ++ String newline "Physical Damage: 10-20".

(** A block with an energy-shield line and a recharge line. *)
Definition shield_block : string :=
  "Energy Shield: 50" ++ String newline "Energy Shield Recharge: 20".


(** Some line of the block has one of the elemental keywords. *)
Definition has_elemental_keyword (data : list (list string)) : Prop :=
  exists line d,
    In line data /\ In d ["Fire"; "Cold"; "Lightning"; "Elemental"] /\ In d line.

(** ** Definitions used to state further properties *)

(** A line that [split()] does not leave empty. *)
Definition has_tokens (tokens : list string) : bool :=
  match tokens with
  | [] => false
  | _ :: _ => true
  end.

(** The string is empty or starts with a whitespace character. *)
Definition head_space (s : string) : bool :=
  match s with
  | EmptyString => true
  | String c _ => is_space c
  end.





(** ** The clipboard

    [monitor_clipboard] and [clear_clipboard] work on the clipboard, which
    the user changes while the script runs.  The schedule lists, for each
    call of [pyperclip.paste()] in turn, what the user did since the script
    last touched the clipboard. *)

Inductive user : Type :=
| Nothing                (* the clipboard was left alone *)
| Copy (text : string)   (* the user copied a text; the last copy counts *)
| CtrlC.                 (* the user interrupted the script *)

(** [pyperclip.paste()] after the user's move. *)
Definition paste (clipboard : string) (u : user) : string :=
  match u with
  | Copy text => text
  | _ => clipboard
  end.

Inductive watch : Type :=
| Returned (text : string) (rest : list user)
| Interrupted
| StillWaiting.

(** The [while True] of [monitor_clipboard]: one [paste()] per turn, until
    the text differs from [last]. *)
Fixpoint poll (last clipboard : string) (schedule : list user) : watch :=
  match schedule with
  | [] => StillWaiting
  | CtrlC :: _ => Interrupted
  | u :: rest =>
      let current := paste clipboard u in
      if String.eqb current last then poll last current rest
      else Returned current rest
  end.

Definition monitor_clipboard (clipboard : string) (schedule : list user)
  : watch :=
  match schedule with
  | [] => StillWaiting
  | CtrlC :: _ => Interrupted
  | u :: rest => let last := paste clipboard u in poll last last rest
  end.

(** [pyperclip.copy('')] *)
Definition clear_clipboard (clipboard : string) : string := "".

(** What a turn of the loop prints once [monitor_clipboard] has returned:
    the lines of [cycle] after 'Waiting for new input...', which
    [monitor_clipboard] prints itself, after its first read. *)
Definition after_monitor (round : Q -> Q) (data_block : string)
  : list output :=
  tl (cycle round data_block).

(** Where the script is between two reads of the clipboard. *)
Inductive phase : Type :=
| Reading                  (* about to read [last_clipboard_text] *)
| Polling (last : string). (* in the loop of [monitor_clipboard] *)

(** The loop of [main] on the clipboard itself: [extract_stats] calls
    [monitor_clipboard] and then [clear_clipboard], the rest of the turn
    follows, and the loop starts again.  An interrupt is taken to arrive
    while the script is in [extract_stats], where it spends its time in
    [time.sleep]: it is caught there and ends the run.  ([time.sleep]
    itself has no effect on what is read or printed.) *)
Fixpoint run (round : Q -> Q) (ph : phase) (clipboard : string)
         (schedule : list user) : list output :=
  match schedule with
  | [] => []
  | CtrlC :: _ => [ExitedByUser]
  | u :: rest =>
      let current := paste clipboard u in
      match ph with
      | Reading => Waiting :: run round (Polling current) current rest
      | Polling last =>
          if String.eqb current last then run round (Polling last) current rest
          else (after_monitor round current
                ++ run round Reading (clear_clipboard current) rest)%list
      end
  end.

(** The user leaves the clipboard alone, or copies again the text [last]. *)
Definition quiet (last : string) (u : user) : Prop :=
  u = Nothing \/ u = Copy last.

(** The schedule of a user who, for each text in turn, lets the script read
    the clipboard, waits for some polls and then copies the text. *)
Definition copies (waits : list (nat * string)) : list user :=
  flat_map (fun w => Nothing :: repeat Nothing (fst w) ++ [Copy (snd w)])%list
           waits.

(** * Properties *)

(** ** Text *)






(** ** Arithmetic *)


(** ** extract_armor, element by element *)




(** ** The rendering of a line of printable tokens

    [str] of a list adds brackets, commas, spaces, quotes and backslashes
    around the characters of printable tokens, and nothing else; a class of
    characters that has none of these sees the tokens only. *)














(** ** The driver loop, case by case *)

Lemma cycle_weapon_raises (round : Q -> Q) (data_block : string)
      (numbers : weapon_numbers) (e : exn) :
  martBool (snd (extract_stats data_block)) = true ->
  extract_weapon round (map Line (fst (extract_stats data_block))) = Ok numbers ->
  flippid_mart round numbers = Raise e ->
  cycle round data_block =
  [Waiting; ExtractedBlock data_block;
   PrintData (fst (extract_stats data_block)); PrintError e].
Proof.
  intros Hm Hw He. unfold cycle, main_try, extract_stats_io.
  destruct (extract_stats data_block) as [data checks].
  cbn [fst snd] in *. cbn [io_bind print lift app].
  rewrite Hm. cbn [io_bind print lift app].
  rewrite Hw. cbn [io_bind print lift app].
  rewrite He. reflexivity.
Qed.



(** ** Rounding, checked on a few values

    The values are those of [float.as_integer_ratio]; the last two are
    ties, which go to the even significand. *)
Lemma binary64_values :
  binary64 0.4 = (3602879701896397 # 9007199254740992)%Q
  /\ binary64 1.2 = (5404319552844595 # 4503599627370496)%Q
  /\ binary64 150.2 = (2642346343871283 # 17592186044416)%Q
  /\ binary64 37.8 = (2659938529915699 # 70368744177664)%Q
  /\ binary64 (-1.1) = (-2476979795053773 # 2251799813685248)%Q
  /\ binary64 1.5 = (3 # 2)%Q
  /\ binary64 9007199254740993 = 9007199254740992%Q
  /\ binary64 9007199254740995 = 9007199254740996%Q.
Proof. vm_compute. repeat split. Qed.

(** ** The value of an armor estimate in exact arithmetic *)

Lemma exact_correct (q : Q) : (exact q == q)%Q.
Proof. apply Qred_correct. Qed.

Lemma to_float_exact (n : num) : (to_float exact n == val n)%Q.
Proof.
  destruct n; cbn [to_float val]; [apply exact_correct | reflexivity].
Qed.

Lemma val_float_lit (q : Q) : (val (float_lit exact q) == q)%Q.
Proof. apply exact_correct. Qed.

Lemma val_add (a b : num) : (val (num_add exact a b) == val a + val b)%Q.
Proof.
  destruct a as [x|x], b as [y|y]; cbn [num_add val];
    try (rewrite exact_correct, !to_float_exact; reflexivity).
  rewrite inject_Z_plus. reflexivity.
Qed.

Lemma val_mul (a b : num) : (val (num_mul exact a b) == val a * val b)%Q.
Proof.
  destruct a as [x|x], b as [y|y]; cbn [num_mul val];
    try (rewrite exact_correct, !to_float_exact; reflexivity).
  rewrite inject_Z_mult. reflexivity.
Qed.

Lemma truediv_ok (a b : num) :
  ~ (val b == 0)%Q ->
  exists r : num,
    truediv exact a b = Ok r /\ (val r == val a / val b)%Q.
Proof.
  intros H.
  assert (Hz : is_zero b = false).
  { destruct b as [y|y]; cbn [is_zero val] in *.
    - destruct (Z.eqb_spec y 0) as [E|E]; [|reflexivity].
      exfalso. apply H. rewrite E. reflexivity.
    - destruct (Qeq_bool y 0) eqn:E; [|reflexivity].
      apply Qeq_bool_eq in E. contradiction. }
  unfold truediv. rewrite Hz. eexists. split; [reflexivity|].
  destruct a as [x|x], b as [y|y]; cbn [val quotient];
    rewrite exact_correct, ?to_float_exact; reflexivity.
Qed.

(** With an increase above -1 the division is defined, and the result is
    the formula of the source. *)
Lemma flippid_armor_value (base increase : num) (check : bool) :
  (-1 < val increase)%Q ->
  exists r : num,
    flippid_armor exact [base; increase] check = Ok r
    /\ (val r == val base / (val increase + 1)
                 * (val increase + 1 + (if check then 0.4 else 0.2)) * 1.2)%Q.
Proof.
  intros Hi.
  assert (Hd : (val (num_add exact increase (PInt 1)) == val increase + 1)%Q)
    by (rewrite val_add; reflexivity).
  destruct (truediv_ok base (num_add exact increase (PInt 1)))
    as (q & Eq & Vq); [rewrite Hd; lra|].
  unfold flippid_armor. cbn [List.length Nat.eqb bind].
  rewrite Eq. cbn [bind]. eexists. split; [reflexivity|].
  rewrite !val_mul, Vq, !val_add, val_float_lit. cbn [val].
  destruct check; rewrite val_float_lit; reflexivity.
Qed.

Lemma Qdiv_le_compat (a b d : Q) :
  (0 < d)%Q -> (a <= b)%Q -> (a / d <= b / d)%Q.
Proof.
  intros Hd Hab. unfold Qdiv. apply Qmult_le_compat_r; [exact Hab|].
  apply Qlt_le_weak, Qinv_lt_0_compat, Hd.
Qed.

Lemma Qdiv_nonneg (a d : Q) : (0 <= a)%Q -> (0 < d)%Q -> (0 <= a / d)%Q.
Proof.
  intros Ha Hd. unfold Qdiv. apply Qmult_le_0_compat; [exact Ha|].
  apply Qlt_le_weak, Qinv_lt_0_compat, Hd.
Qed.

(** ** Rounding to binary64 is monotone *)

Section RoundingFacts.

Local Open Scope Q_scope.

Lemma rne_cases (x : Q) : rne x = Qfloor x \/ rne x = (Qfloor x + 1)%Z.
Proof.
  unfold rne. destruct (_ ?= _); [destruct (Z.even _)| |]; auto.
Qed.

Lemma rne_mono (x y : Q) : x <= y -> (rne x <= rne y)%Z.
Proof.
  intros H. pose proof (Qfloor_resp_le x y H) as Hf.
  destruct (Z.eq_dec (Qfloor x) (Qfloor y)) as [E|N].
  - unfold rne. rewrite <- E. set (f := Qfloor x).
    destruct (Qcompare_spec (x - inject_Z f) (1 # 2)) as [Hx|Hx|Hx];
      destruct (Qcompare_spec (y - inject_Z f) (1 # 2)) as [Hy|Hy|Hy];
      try destruct (Z.even f); first [lia | exfalso; lra].
  - pose proof (rne_cases x). pose proof (rne_cases y). lia.
Qed.

Lemma rne_inject_Z (z : Z) : rne (inject_Z z) = z.
Proof.
  unfold rne. rewrite Qfloor_Z.
  destruct (Qcompare_spec (inject_Z z - inject_Z z) (1 # 2)) as [H|H|H];
    [exfalso; lra | reflexivity | exfalso; lra].
Qed.

Lemma pow2_pos (a : Z) : 0 < 2 ^ a.
Proof. apply Qpower_0_lt. reflexivity. Qed.

Lemma pow2_add (a b : Z) : 2 ^ (a + b) == 2 ^ a * 2 ^ b.
Proof. apply Qpower_plus. intro H; discriminate H. Qed.

Lemma pow2_le (a b : Z) : (a <= b)%Z -> 2 ^ a <= 2 ^ b.
Proof. intros H. apply Qpower_le_compat_l; [exact H|]. intro E; discriminate E. Qed.

Lemma pow2_inject (a : Z) : (0 <= a)%Z -> inject_Z (2 ^ a) == 2 ^ a.
Proof. intros H. apply (Zpower_Qpower 2 a H). Qed.

(** [ilog2] finds the binade of a positive number. *)
Lemma ilog2_spec (x : Q) :
  0 < x -> 2 ^ ilog2 x <= x /\ x < 2 ^ (ilog2 x + 1).
Proof.
  intros Hx. destruct x as [n d].
  assert (Hn : (0 < n)%Z) by (unfold Qlt in Hx; simpl in Hx; lia).
  destruct (Z.log2_spec n Hn) as [Hn1 Hn2].
  destruct (Z.log2_spec (Zpos d) eq_refl) as [Hd1 Hd2].
  pose proof (Z.log2_nonneg n) as Hln.
  pose proof (Z.log2_nonneg (Zpos d)) as Hld.
  unfold ilog2. cbn [Qnum Qden].
  set (ln := Z.log2 n) in *. set (ld := Z.log2 (Zpos d)) in *.
  set (k := (ln - ld)%Z).
  assert (Qn1 : 2 ^ ln <= inject_Z n)
    by (rewrite <- pow2_inject by lia; rewrite <- Zle_Qle; exact Hn1).
  assert (Qn2 : inject_Z n < 2 ^ (ln + 1))
    by (rewrite <- pow2_inject by lia; rewrite <- Zlt_Qlt; exact Hn2).
  assert (Qd1 : 2 ^ ld <= inject_Z (Zpos d))
    by (rewrite <- pow2_inject by lia; rewrite <- Zle_Qle; exact Hd1).
  assert (Qd2 : inject_Z (Zpos d) < 2 ^ (ld + 1))
    by (rewrite <- pow2_inject by lia; rewrite <- Zlt_Qlt; exact Hd2).
  assert (Hd : 0 < inject_Z (Zpos d)) by reflexivity.
  assert (Lo : 2 ^ (k - 1) <= n # d).
  { rewrite (Qmake_Qdiv n d). apply Qle_shift_div_l; [exact Hd|].
    apply Qle_trans with (2 ^ (k - 1) * 2 ^ (ld + 1)).
    - apply Qmult_le_l; [apply pow2_pos|]. apply Qlt_le_weak, Qd2.
    - rewrite <- pow2_add. replace (k - 1 + (ld + 1))%Z with ln by (unfold k; lia).
      exact Qn1. }
  assert (Hi : n # d < 2 ^ (k + 1)).
  { rewrite (Qmake_Qdiv n d). apply Qlt_shift_div_r; [exact Hd|].
    apply Qlt_le_trans with (2 ^ (k + 1) * 2 ^ ld).
    - rewrite <- pow2_add. replace (k + 1 + ld)%Z with (ln + 1)%Z by (unfold k; lia).
      exact Qn2.
    - apply Qmult_le_l; [apply pow2_pos|]. exact Qd1. }
  destruct (Qle_bool (2 ^ k) (n # d)) eqn:E.
  - apply Qle_bool_iff in E. split; [exact E|exact Hi].
  - split; [exact Lo|].
    replace (k - 1 + 1)%Z with k by lia.
    apply Qnot_le_lt. intro H. apply Qle_bool_iff in H. congruence.
Qed.

(** The rounded value stays in the closed binade. *)
Lemma round53_bounds (x : Q) :
  0 < x -> 2 ^ ilog2 x <= round53 x /\ round53 x <= 2 ^ (ilog2 x + 1).
Proof.
  intros Hx. destruct (ilog2_spec x Hx) as [Lo Hi].
  unfold round53. set (L := ilog2 x) in *. set (e := (L - 52)%Z).
  assert (S1 : 2 ^ 52 <= x * 2 ^ (- e)).
  { apply Qle_trans with (2 ^ L * 2 ^ (- e)).
    - rewrite <- pow2_add. apply pow2_le. unfold e. lia.
    - apply Qmult_le_compat_r; [exact Lo|]. apply Qlt_le_weak, pow2_pos. }
  assert (S2 : x * 2 ^ (- e) <= 2 ^ 53).
  { apply Qle_trans with (2 ^ (L + 1) * 2 ^ (- e)).
    - apply Qmult_le_compat_r; [apply Qlt_le_weak, Hi|].
      apply Qlt_le_weak, pow2_pos.
    - rewrite <- pow2_add. apply pow2_le. unfold e. lia. }
  assert (M1 : (2 ^ 52 <= rne (x * 2 ^ (- e)))%Z).
  { rewrite <- (rne_inject_Z (2 ^ 52)). apply rne_mono.
    rewrite pow2_inject by lia. exact S1. }
  assert (M2 : (rne (x * 2 ^ (- e)) <= 2 ^ 53)%Z).
  { rewrite <- (rne_inject_Z (2 ^ 53)). apply rne_mono.
    rewrite pow2_inject by lia. exact S2. }
  rewrite Zle_Qle in M1, M2. rewrite pow2_inject in M1, M2 by lia.
  split.
  - apply Qle_trans with (2 ^ 52 * 2 ^ e).
    + rewrite <- pow2_add. apply pow2_le. unfold e. lia.
    + apply Qmult_le_compat_r; [exact M1|]. apply Qlt_le_weak, pow2_pos.
  - apply Qle_trans with (2 ^ 53 * 2 ^ e).
    + apply Qmult_le_compat_r; [exact M2|]. apply Qlt_le_weak, pow2_pos.
    + rewrite <- pow2_add. apply pow2_le. unfold e. lia.
Qed.

Lemma round53_positive (x : Q) : 0 < x -> 0 < round53 x.
Proof.
  intros Hx. destruct (round53_bounds x Hx) as [Lo _].
  apply Qlt_le_trans with (2 ^ ilog2 x); [apply pow2_pos|exact Lo].
Qed.


Lemma binary64_of_positive (q : Q) : 0 < q -> binary64 q == round53 q.
Proof.
  intros H. unfold binary64. rewrite Qred_correct.
  destruct q as [[|p|p] d]; [discriminate H | reflexivity | discriminate H].
Qed.

Lemma binary64_of_negative (q : Q) : q < 0 -> binary64 q == - round53 (- q).
Proof.
  intros H. unfold binary64. rewrite Qred_correct.
  destruct q as [[|p|p] d]; [discriminate H | discriminate H | reflexivity].
Qed.

Lemma binary64_of_zero (q : Q) : q == 0 -> binary64 q == 0.
Proof.
  intros H. unfold binary64. rewrite Qred_correct.
  destruct q as [[|p|p] d]; [reflexivity | discriminate H | discriminate H].
Qed.

Lemma binary64_positive (q : Q) : 0 < q -> 0 < binary64 q.
Proof.
  intros H. rewrite binary64_of_positive by exact H.
  apply round53_positive, H.
Qed.

Lemma binary64_negative (q : Q) : q < 0 -> binary64 q < 0.
Proof.
  intros H. rewrite binary64_of_negative by exact H.
  assert (Hp : 0 < round53 (- q)) by (apply round53_positive; lra).
  lra.
Qed.


End RoundingFacts.

(** ** The armor estimate under a rounding that keeps the order *)

Section MonotoneRounding.

Local Open Scope Q_scope.

Variable round : Q -> Q.
Hypothesis round_mono : forall x y : Q, x <= y -> round x <= round y.
Hypothesis round_positive : forall x : Q, 0 < x -> 0 < round x.
Hypothesis round_zero : round 0 == 0.
Hypothesis round_one : round 1 == 1.













End MonotoneRounding.

(** ** The line filter *)

Lemma mem_In (t : string) (l : list string) : mem t l = true <-> In t l.
Proof.
  unfold mem. rewrite existsb_exists. split.
  - intros (x & Hx & E). apply String.eqb_eq in E. subst x. exact Hx.
  - intros H. exists t. split; [exact H|apply String.eqb_refl].
Qed.

Lemma mem_not_In (t : string) (l : list string) : mem t l = false <-> ~ In t l.
Proof.
  rewrite <- mem_In. destruct (mem t l); split; intros H; try reflexivity;
    try discriminate H; try (intro H'; discriminate H').
  exfalso; apply H; reflexivity.
Qed.

Lemma has_token_spec (t : string) (data : list (list string)) :
  has_token t data = true <-> exists line, In line data /\ In t line.
Proof.
  unfold has_token. rewrite existsb_exists.
  split; intros (line & Hl & Ht); exists line; split; try exact Hl;
    apply mem_In; exact Ht.
Qed.

Lemma has_token_false (t : string) (data : list (list string)) :
  has_token t data = false <-> ~ exists line, In line data /\ In t line.
Proof.
  rewrite <- has_token_spec. destruct (has_token t data); split; intros H;
    try reflexivity; try discriminate H; try (intro H'; discriminate H').
  exfalso; apply H; reflexivity.
Qed.

Lemma eleBool_spec (data : list (list string)) :
  eleBool (classify data) = true <-> has_elemental_keyword data.
Proof.
  cbn [classify eleBool]. unfold has_elemental_keyword.
  rewrite existsb_exists. split.
  - intros (line & Hl & H). apply existsb_exists in H as (d & Hd & Hm).
    exists line, d. repeat split; try assumption. apply mem_In, Hm.
  - intros (line & d & Hl & Hd & Hm). exists line. split; [exact Hl|].
    apply existsb_exists. exists d. split; [exact Hd|apply mem_In, Hm].
Qed.

Ltac line_props :=
  repeat first [ rewrite andb_true_iff | rewrite orb_true_iff
               | rewrite negb_true_iff | rewrite mem_In | rewrite mem_not_In ].

Lemma keep_energy_spec (line : list string) :
  keep_energy line = true <->
  ((In "Energy" line /\ In "Shield" line) \/ In "Shield:" line)
  /\ ~ In "Recharge" line /\ ~ In "maximum" line.
Proof. unfold keep_energy. line_props. tauto. Qed.

Lemma keep_weapon_ele_spec (line : list string) :
  keep_weapon_ele line = true <->
  In "Damage:" line \/ In "Attacks" line
  \/ (In "increased" line /\ ~ In "Adds" line).
Proof. unfold keep_weapon_ele. line_props. tauto. Qed.

Lemma keep_weapon_phys_spec (line : list string) :
  keep_weapon_phys line = true <->
  (In "Damage:" line /\ In "Physical" line) \/ In "Attacks" line
  \/ (In "increased" line /\ ~ In "Adds" line).
Proof. unfold keep_weapon_phys. line_props. tauto. Qed.

(** ** The numbers of a line *)



(** * The claims *)

(** C1 (as stated, refuted).  For the block "Evasion Rating: 150 (+20%)"
    the armor extractor does not yield [150, 0.20]: it yields the single
    number 150.2, from which [flippid_armor] with the factor 0.2 returns
    216.28799999999998 (216.288 without rounding), not 180; and from
    [150, 0.20] it returns 210, not 180. *)
Lemma evasion_example_counterexample :
  extract_armor binary64 (map Line (fst (extract_stats evasion_block)))
  = Ok [float_lit binary64 150.2]
  /\ [float_lit binary64 150.2] <> [PInt 150; float_lit binary64 0.20]
  /\ flippid_armor binary64 [float_lit binary64 150.2] false
     = Ok (float_lit binary64 216.28799999999998)
  /\ float_lit binary64 216.28799999999998 <> float_lit binary64 180
  /\ flippid_armor exact [float_lit exact 150.2] false
     = Ok (float_lit exact 216.288)
  /\ float_lit exact 216.288 <> float_lit exact 180
  /\ flippid_armor binary64 [PInt 150; float_lit binary64 0.20] false
     = Ok (float_lit binary64 210)
  /\ float_lit binary64 210 <> float_lit binary64 180.
Proof.
  repeat split; try (vm_compute; reflexivity);
    intro H; vm_compute in H; discriminate H.
Qed.

(** C1 (amended).  For the block "Evasion Rating: 150 (+20%)" no marker is
    found and the generic-armor path is taken; the one kept line is rendered
    as a whole, so the extractor yields the one-element sequence [150.2]
    (the digits 15020 divided by 100); [flippid_armor] with the factor 0.2
    returns 150.2 * 1.2 * 1.2, which is 216.28799999999998 in binary64 and
    216.288 without rounding, and that is what the loop prints.  Given the
    sequence [150, 0.20], [flippid_armor] with the factor 0.2 returns
    (150 / 1.2) * 1.4 * 1.2 = 210. *)
Theorem evasion_example :
  extract_stats evasion_block
  = ([["Evasion"; "Rating:"; "150"; "(+20%)"]],
     {| esBool := false; chestBool := false;
        martBool := false; eleBool := false |})
  /\ extract_armor binary64 (map Line (fst (extract_stats evasion_block)))
     = Ok [float_lit binary64 150.2]
  /\ flippid_armor binary64 [float_lit binary64 150.2] false
     = Ok (float_lit binary64 216.28799999999998)
  /\ cycle binary64 evasion_block
     = [Waiting; ExtractedBlock evasion_block;
        PrintData [["Evasion"; "Rating:"; "150"; "(+20%)"]];
        PrintNumbers [float_lit binary64 150.2];
        ResultOther (float_lit binary64 216.28799999999998); Divider]
  /\ flippid_armor binary64 [PInt 150; float_lit binary64 0.20] false
     = Ok (float_lit binary64 210)
  /\ extract_armor exact (map Line (fst (extract_stats evasion_block)))
     = Ok [float_lit exact 150.2]
  /\ flippid_armor exact [float_lit exact 150.2] false
     = Ok (float_lit exact 216.288)
  /\ flippid_armor exact [PInt 150; float_lit exact 0.20] false
     = Ok (float_lit exact 210).
Proof. repeat split; vm_compute; reflexivity. Qed.

(** C2.  For the weapon block with the lines "Physical Damage: 10-20" and
    "Attacks per Second: 150" both lines are kept, extraction yields
    physical = [15], elemental = [] and speed = [1.5], and [flippid_mart]
    returns pDPS = 37.8, eDPS = 0 and total = 37.8, which the loop prints;
    in binary64 the results are the floats 37.8 and 0.0 themselves. *)
Theorem weapon_example :
  extract_stats weapon_block
  = ([["Physical"; "Damage:"; "10-20"]; ["Attacks"; "per"; "Second:"; "150"]],
     {| esBool := false; chestBool := false;
        martBool := true; eleBool := false |})
  /\ extract_weapon binary64 (map Line (fst (extract_stats weapon_block)))
     = Ok {| physical := [float_lit binary64 15]; elemental := [];
             speed := [float_lit binary64 1.5] |}
  /\ flippid_mart binary64
       {| physical := [float_lit binary64 15]; elemental := [];
          speed := [float_lit binary64 1.5] |}
     = Ok (float_lit binary64 37.8, float_lit binary64 0,
           float_lit binary64 37.8)
  /\ cycle binary64 weapon_block
     = [Waiting; ExtractedBlock weapon_block;
        PrintData (fst (extract_stats weapon_block));
        ResultDPS (float_lit binary64 37.8) (float_lit binary64 0)
                  (float_lit binary64 37.8);
        Divider]
  /\ extract_weapon exact (map Line (fst (extract_stats weapon_block)))
     = Ok {| physical := [float_lit exact 15]; elemental := [];
             speed := [float_lit exact 1.5] |}
  /\ flippid_mart exact
       {| physical := [float_lit exact 15]; elemental := [];
          speed := [float_lit exact 1.5] |}
     = Ok (float_lit exact 37.8, float_lit exact 0, float_lit exact 37.8).
Proof. repeat split; vm_compute; reflexivity. Qed.

(** C3.  Whenever a block is classified as a weapon and its extraction
    ends with an empty speed bucket, [flippid_mart] raises IndexError at
    [numbers['speed'][0]]; the turn of the loop prints the block, the kept
    lines and the error message and nothing else (no DPS line), and the
    loop goes on with the next event. *)
Theorem missing_speed_is_caught (round : Q -> Q) (data_block : string)
        (numbers : weapon_numbers) :
  martBool (snd (extract_stats data_block)) = true ->
  extract_weapon round (map Line (fst (extract_stats data_block)))
  = Ok numbers ->
  speed numbers = [] ->
  flippid_mart round numbers = Raise IndexError
  /\ cycle round data_block
     = [Waiting; ExtractedBlock data_block;
        PrintData (fst (extract_stats data_block)); PrintError IndexError]
  /\ forall rest : list event,
       main round (Clipboard data_block :: rest)
       = ([Waiting; ExtractedBlock data_block;
           PrintData (fst (extract_stats data_block));
           PrintError IndexError] ++ main round rest)%list.
Proof.
  intros Hm Hw Hs.
  assert (He : flippid_mart round numbers = Raise IndexError)
    by (unfold flippid_mart; rewrite Hs; reflexivity).
  pose proof (cycle_weapon_raises _ _ _ _ Hm Hw He) as Hc.
  split; [exact He|]. split; [exact Hc|].
  intros rest. cbn [main]. rewrite Hc. reflexivity.
Qed.

Lemma missing_speed_is_caught_witness :
  flippid_mart binary64
    {| physical := [PFloat 15]; elemental := []; speed := [] |}
  = Raise IndexError
  /\ cycle binary64 "Physical Damage: 10-20"
     = [Waiting; ExtractedBlock "Physical Damage: 10-20";
        PrintData (fst (extract_stats "Physical Damage: 10-20"));
        PrintError IndexError]
  /\ forall rest : list event,
       main binary64 (Clipboard "Physical Damage: 10-20" :: rest)
       = ([Waiting; ExtractedBlock "Physical Damage: 10-20";
           PrintData (fst (extract_stats "Physical Damage: 10-20"));
           PrintError IndexError] ++ main binary64 rest)%list.
Proof.
  apply (missing_speed_is_caught binary64 "Physical Damage: 10-20"
           {| physical := [PFloat 15]; elemental := []; speed := [] |}).
  - reflexivity.
  - vm_compute. reflexivity.
  - reflexivity.
Defined.




(** C5.  For every number x and every check, [flippid_armor] on the
    one-element sequence [x] is [flippid_armor] on [x, 0], whatever the
    rounding. *)
Theorem armor_single_is_zero_increase (round : Q -> Q) (x : num)
        (check : bool) :
  flippid_armor round [x] check = flippid_armor round [x; PInt 0] check.
Proof. reflexivity. Qed.

(** In exact arithmetic the bases need not be of the same kind. *)
Lemma exact_estimate_monotone :
  (forall (base1 base2 increase : num) (check : bool),
      (-1 < val increase)%Q -> (val base1 <= val base2)%Q ->
      exists r1 r2 : num,
        flippid_armor exact [base1; increase] check = Ok r1
        /\ flippid_armor exact [base2; increase] check = Ok r2
        /\ (val r1 <= val r2)%Q)
  /\ (forall base increase : num,
         (0 <= val base)%Q -> (-1 < val increase)%Q ->
         exists r04 r02 : num,
           flippid_armor exact [base; increase] true = Ok r04
           /\ flippid_armor exact [base; increase] false = Ok r02
           /\ (val r02 <= val r04)%Q).
Proof.
  split.
  - intros base1 base2 increase check Hi Hb.
    destruct (flippid_armor_value base1 increase check Hi) as (r1 & E1 & V1).
    destruct (flippid_armor_value base2 increase check Hi) as (r2 & E2 & V2).
    exists r1, r2. split; [exact E1|]. split; [exact E2|].
    rewrite V1, V2.
    apply Qmult_le_compat_r; [|lra].
    apply Qmult_le_compat_r; [|destruct check; lra].
    apply Qdiv_le_compat; [lra|exact Hb].
  - intros base increase Hb Hi.
    destruct (flippid_armor_value base increase true Hi) as (r04 & E4 & V4).
    destruct (flippid_armor_value base increase false Hi) as (r02 & E2 & V2).
    exists r04, r02. split; [exact E4|]. split; [exact E2|].
    rewrite V4, V2.
    apply Qmult_le_compat_r; [|lra].
    rewrite !(Qmult_comm (val base / (val increase + 1))).
    apply Qmult_le_compat_r; [lra|].
    apply Qdiv_nonneg; [exact Hb|lra].
Qed.




(** C7.  For every block in which some line has the token "Energy", the
    filter keeps, in their order, exactly the lines that have both "Energy"
    and "Shield", or have "Shield:", and have neither "Recharge" nor
    "maximum"; so no kept line has "Recharge" or "maximum". *)
Theorem energy_filter (data_block : string) :
  (exists line, In line (token_lines data_block) /\ In "Energy" line) ->
  fst (extract_stats data_block) = filter keep_energy (token_lines data_block)
  /\ (forall line,
        In line (fst (extract_stats data_block)) <->
        In line (token_lines data_block)
        /\ ((In "Energy" line /\ In "Shield" line) \/ In "Shield:" line)
        /\ ~ In "Recharge" line /\ ~ In "maximum" line)
  /\ (forall line,
        In line (fst (extract_stats data_block)) ->
        ~ In "Recharge" line /\ ~ In "maximum" line).
Proof.
  intros He. apply has_token_spec in He.
  assert (E : fst (extract_stats data_block)
              = filter keep_energy (token_lines data_block)).
  { unfold extract_stats, filter_lines. cbn [fst classify esBool].
    rewrite He. reflexivity. }
  split; [exact E|]. rewrite E. split.
  - intros line. rewrite filter_In, keep_energy_spec. reflexivity.
  - intros line. rewrite filter_In, keep_energy_spec. tauto.
Qed.

Lemma energy_filter_witness :
  fst (extract_stats shield_block) = filter keep_energy (token_lines shield_block)
  /\ (forall line,
        In line (fst (extract_stats shield_block)) <->
        In line (token_lines shield_block)
        /\ ((In "Energy" line /\ In "Shield" line) \/ In "Shield:" line)
        /\ ~ In "Recharge" line /\ ~ In "maximum" line)
  /\ (forall line,
        In line (fst (extract_stats shield_block)) ->
        ~ In "Recharge" line /\ ~ In "maximum" line).
Proof.
  apply (energy_filter shield_block).
  exists ["Energy"; "Shield:"; "50"]. split.
  - left. reflexivity.
  - left. reflexivity.
Defined.

(** C8 (as stated, refuted).  In the block with the lines "Energy" and
    "Physical Damage: 10-20" some line has the token "Damage:", and the
    second line has "Damage:" and "Physical", yet it is not kept: the
    energy-shield test comes first, its filter runs, and it keeps
    nothing. *)
Lemma weapon_filter_counterexample :
  (exists line,
      In line (token_lines energy_weapon_block) /\ In "Damage:" line)
  /\ In ["Physical"; "Damage:"; "10-20"] (token_lines energy_weapon_block)
  /\ In "Damage:" ["Physical"; "Damage:"; "10-20"]
  /\ In "Physical" ["Physical"; "Damage:"; "10-20"]
  /\ fst (extract_stats energy_weapon_block) = []
  /\ ~ In ["Physical"; "Damage:"; "10-20"]
         (fst (extract_stats energy_weapon_block)).
Proof.
  split; [exists ["Physical"; "Damage:"; "10-20"]; split|].
  - right. left. reflexivity.
  - right. left. reflexivity.
  - repeat split.
    + right. left. reflexivity.
    + right. left. reflexivity.
    + left. reflexivity.
    + intros H. exact H.
Qed.

(** C8 (amended).  The weapon branch of the filter is the [elif martBool]
    of [extract_stats]: it is taken when some line has the token "Damage:"
    and no line has the token "Energy".  In that branch a line is kept if
    and only if it has "Damage:" (and, when no elemental keyword appears
    anywhere in the block, also "Physical"), or has "Attacks", or has
    "increased" without "Adds"; in particular a line with both "Attacks"
    and "Adds" is kept. *)
Theorem weapon_filter (data_block : string) :
  (~ exists line, In line (token_lines data_block) /\ In "Energy" line) ->
  (exists line, In line (token_lines data_block) /\ In "Damage:" line) ->
  (forall line,
      In line (fst (extract_stats data_block)) <->
      In line (token_lines data_block)
      /\ ((In "Damage:" line
           /\ (has_elemental_keyword (token_lines data_block)
               \/ In "Physical" line))
          \/ In "Attacks" line
          \/ (In "increased" line /\ ~ In "Adds" line)))
  /\ (forall line,
        In line (token_lines data_block) ->
        In "Attacks" line -> In "Adds" line ->
        In line (fst (extract_stats data_block))).
Proof.
  intros He Hd. apply has_token_false in He. apply has_token_spec in Hd.
  assert (K : forall line,
             In line (fst (extract_stats data_block)) <->
             In line (token_lines data_block)
             /\ ((In "Damage:" line
                  /\ (has_elemental_keyword (token_lines data_block)
                      \/ In "Physical" line))
                 \/ In "Attacks" line
                 \/ (In "increased" line /\ ~ In "Adds" line))).
  { intros line. unfold extract_stats, filter_lines.
    cbn [fst]. cbn [classify esBool martBool]. rewrite He, Hd.
    rewrite <- eleBool_spec.
    destruct (eleBool (classify (token_lines data_block))).
    - rewrite filter_In, keep_weapon_ele_spec. tauto.
    - rewrite filter_In, keep_weapon_phys_spec.
      split; [tauto|]. intros (Hl & [[HD [Hf | HP]] | H]);
        [discriminate Hf | tauto | tauto]. }
  split; [exact K|].
  intros line Hl Hat _. apply K. tauto.
Qed.

Lemma weapon_filter_witness :
  (forall line,
      In line (fst (extract_stats weapon_block)) <->
      In line (token_lines weapon_block)
      /\ ((In "Damage:" line
           /\ (has_elemental_keyword (token_lines weapon_block)
               \/ In "Physical" line))
          \/ In "Attacks" line
          \/ (In "increased" line /\ ~ In "Adds" line)))
  /\ (forall line,
        In line (token_lines weapon_block) ->
        In "Attacks" line -> In "Adds" line ->
        In line (fst (extract_stats weapon_block))).
Proof.
  apply (weapon_filter weapon_block).
  - apply has_token_false. reflexivity.
  - exists ["Physical"; "Damage:"; "10-20"]. split.
    + left. reflexivity.
    + right. left. reflexivity.
Defined.





(** * Further properties of the code *)

(** ** The generic-armor branch of the filter *)

Lemma keep_evasion_spec (line : list string) :
  keep_evasion line = true <-> In "Evasion" line /\ ~ In "to" line.
Proof. unfold keep_evasion. line_props. tauto. Qed.

(** X1.  When no line has the token "Energy" and no line has the token
    "Damage:", the filter keeps, in their order, exactly the lines that have
    the token "Evasion" and do not have the token "to". *)
Theorem evasion_filter (data_block : string) :
  (~ exists line, In line (token_lines data_block) /\ In "Energy" line) ->
  (~ exists line, In line (token_lines data_block) /\ In "Damage:" line) ->
  fst (extract_stats data_block) = filter keep_evasion (token_lines data_block)
  /\ forall line,
       In line (fst (extract_stats data_block)) <->
       In line (token_lines data_block)
       /\ In "Evasion" line /\ ~ In "to" line.
Proof.
  intros He Hd. apply has_token_false in He. apply has_token_false in Hd.
  assert (E : fst (extract_stats data_block)
              = filter keep_evasion (token_lines data_block)).
  { unfold extract_stats, filter_lines. cbn [fst classify esBool martBool].
    rewrite He, Hd. reflexivity. }
  split; [exact E|]. intros line.
  rewrite E, filter_In, keep_evasion_spec. reflexivity.
Qed.

Lemma evasion_filter_witness :
  fst (extract_stats evasion_block) = filter keep_evasion (token_lines evasion_block)
  /\ forall line,
       In line (fst (extract_stats evasion_block)) <->
       In line (token_lines evasion_block)
       /\ In "Evasion" line /\ ~ In "to" line.
Proof.
  apply (evasion_filter evasion_block);
    apply has_token_false; reflexivity.
Defined.

(** ** One turn of the loop, by path *)

Lemma cycle_weapon_cases (round : Q -> Q) (data_block : string) :
  martBool (snd (extract_stats data_block)) = true ->
  cycle round data_block =
  ([Waiting; ExtractedBlock data_block;
    PrintData (fst (extract_stats data_block))]
   ++ match extract_weapon round (map Line (fst (extract_stats data_block))) with
      | Raise e => [PrintError e]
      | Ok numbers =>
          match flippid_mart round numbers with
          | Raise e => [PrintError e]
          | Ok (phys, ele, tot) => [ResultDPS tot ele phys; Divider]
          end
      end)%list.
Proof.
  intros Hm. unfold cycle, main_try, extract_stats_io.
  destruct (extract_stats data_block) as [data checks].
  cbn [fst snd] in *. cbn [io_bind print lift app]. rewrite Hm.
  destruct (extract_weapon round (map Line data)) as [numbers|e];
    cbn [io_bind print lift app]; [|reflexivity].
  destruct (flippid_mart round numbers) as [[[phys ele] tot]|e];
    reflexivity.
Qed.


(** X2.  A block in which some line has the token "Damage:" is evaluated as
    a weapon whatever other markers it has: the turn prints the block and
    the kept lines, and then either one DPS line and the divider, or one
    error line; it never prints extracted numbers or an armor result. *)
Theorem weapon_turn (round : Q -> Q) (data_block : string) :
  (exists line, In line (token_lines data_block) /\ In "Damage:" line) ->
  (exists tot ele phys : num,
      cycle round data_block
      = [Waiting; ExtractedBlock data_block;
         PrintData (fst (extract_stats data_block));
         ResultDPS tot ele phys; Divider])
  \/ (exists e : exn,
         cycle round data_block
         = [Waiting; ExtractedBlock data_block;
            PrintData (fst (extract_stats data_block)); PrintError e]).
Proof.
  intros Hd. apply has_token_spec in Hd.
  rewrite (cycle_weapon_cases round data_block) by exact Hd.
  destruct (extract_weapon round _) as [numbers|e];
    [|right; exists e; reflexivity].
  destruct (flippid_mart round numbers) as [[[phys ele] tot]|e].
  - left. exists tot, ele, phys. reflexivity.
  - right. exists e. reflexivity.
Qed.

Lemma weapon_turn_witness :
  (exists tot ele phys : num,
      cycle binary64 energy_weapon_block
      = [Waiting; ExtractedBlock energy_weapon_block;
         PrintData (fst (extract_stats energy_weapon_block));
         ResultDPS tot ele phys; Divider])
  \/ (exists e : exn,
         cycle binary64 energy_weapon_block
         = [Waiting; ExtractedBlock energy_weapon_block;
            PrintData (fst (extract_stats energy_weapon_block));
            PrintError e]).
Proof.
  apply (weapon_turn binary64 energy_weapon_block).
  exists ["Physical"; "Damage:"; "10-20"]. split.
  - right. left. reflexivity.
  - right. left. reflexivity.
Defined.

(** X3.  When a block has both a line with the token "Energy" and a line
    with the token "Damage:", the lines are filtered as for an energy
    shield, yet the weapon extractor and evaluator run on them: every kept
    line has "Shield" or "Shield:", and the turn ends with a DPS line or an
    error, never with an armor result. *)
Theorem energy_weapon_mismatch (round : Q -> Q) (data_block : string) :
  (exists line, In line (token_lines data_block) /\ In "Energy" line) ->
  (exists line, In line (token_lines data_block) /\ In "Damage:" line) ->
  fst (extract_stats data_block) = filter keep_energy (token_lines data_block)
  /\ (forall line,
        In line (fst (extract_stats data_block)) ->
        In "Shield" line \/ In "Shield:" line)
  /\ cycle round data_block
     = ([Waiting; ExtractedBlock data_block;
         PrintData (filter keep_energy (token_lines data_block))]
        ++ match extract_weapon round
                   (map Line (filter keep_energy (token_lines data_block))) with
           | Raise e => [PrintError e]
           | Ok numbers =>
               match flippid_mart round numbers with
               | Raise e => [PrintError e]
               | Ok (phys, ele, tot) => [ResultDPS tot ele phys; Divider]
               end
           end)%list.
Proof.
  intros He Hd. apply has_token_spec in He. apply has_token_spec in Hd.
  assert (E : fst (extract_stats data_block)
              = filter keep_energy (token_lines data_block)).
  { unfold extract_stats, filter_lines. cbn [fst classify esBool].
    rewrite He. reflexivity. }
  split; [exact E|]. split.
  - intros line Hl. rewrite E in Hl. apply filter_In in Hl as [_ Hk].
    apply keep_energy_spec in Hk. tauto.
  - rewrite (cycle_weapon_cases round data_block) by exact Hd.
    rewrite E. reflexivity.
Qed.

Lemma energy_weapon_mismatch_witness :
  fst (extract_stats energy_weapon_block)
  = filter keep_energy (token_lines energy_weapon_block)
  /\ (forall line,
        In line (fst (extract_stats energy_weapon_block)) ->
        In "Shield" line \/ In "Shield:" line)
  /\ cycle binary64 energy_weapon_block
     = ([Waiting; ExtractedBlock energy_weapon_block;
         PrintData (filter keep_energy (token_lines energy_weapon_block))]
        ++ match extract_weapon binary64
                   (map Line (filter keep_energy
                                (token_lines energy_weapon_block))) with
           | Raise e => [PrintError e]
           | Ok numbers =>
               match flippid_mart binary64 numbers with
               | Raise e => [PrintError e]
               | Ok (phys, ele, tot) => [ResultDPS tot ele phys; Divider]
               end
           end)%list.
Proof.
  apply (energy_weapon_mismatch binary64 energy_weapon_block).
  - exists ["Energy"]. split; left; reflexivity.
  - exists ["Physical"; "Damage:"; "10-20"]. split.
    + right. left. reflexivity.
    + right. left. reflexivity.
Defined.

(** ** The loop over the events *)

Lemma main_clipboards (round : Q -> Q) (blocks : list string)
      (rest : list event) :
  main round (map Clipboard blocks ++ rest)
  = (List.concat (map (cycle round) blocks) ++ main round rest)%list.
Proof.
  induction blocks as [|b blocks IH]; [reflexivity|].
  cbn [map app main List.concat]. rewrite IH, app_assoc. reflexivity.
Qed.

Lemma main_interrupt (round : Q -> Q) (events rest1 rest2 : list event) :
  main round (events ++ KeyboardInterrupt :: rest1)
  = main round (events ++ KeyboardInterrupt :: rest2).
Proof.
  induction events as [|[b|] events IH]; cbn [app main];
    [reflexivity | rewrite IH; reflexivity | reflexivity].
Qed.

(** X4.  The loop handles the clipboard texts one by one and independently:
    what it prints for a sequence of texts is the concatenation of what it
    prints for each, whether a turn ended in an error or not, followed by
    what it prints for the events that remain; and nothing that comes after
    an interrupt has any effect. *)
Theorem main_turn_by_turn (round : Q -> Q) :
  (forall (blocks : list string) (rest : list event),
      main round (map Clipboard blocks ++ rest)
      = (List.concat (map (cycle round) blocks) ++ main round rest)%list)
  /\ (forall blocks : list string,
         main round (map Clipboard blocks)
         = (List.concat (map (cycle round) blocks) ++ [Waiting])%list)
  /\ (forall (blocks : list string) (rest : list event),
         main round (map Clipboard blocks ++ KeyboardInterrupt :: rest)
         = (List.concat (map (cycle round) blocks) ++ [Waiting; ExitedByUser])%list)
  /\ (forall events rest1 rest2 : list event,
         main round (events ++ KeyboardInterrupt :: rest1)
         = main round (events ++ KeyboardInterrupt :: rest2)).
Proof.
  split; [apply main_clipboards|]. split; [|split].
  - intros blocks. rewrite <- (app_nil_r (map Clipboard blocks)).
    rewrite main_clipboards. reflexivity.
  - intros blocks rest. rewrite main_clipboards. reflexivity.
  - apply main_interrupt.
Qed.

(** ** The errors of the evaluators *)

Lemma binary64_zero_iff (q : Q) : (binary64 q == 0 <-> q == 0)%Q.
Proof.
  split; [|apply binary64_of_zero].
  intros H. destruct (Q_dec q 0) as [[Hq | Hq] | Hq]; [| |exact Hq].
  - pose proof (binary64_negative q Hq). lra.
  - pose proof (binary64_positive q Hq). lra.
Qed.


(** [increase + 1] is zero exactly when the increase is -1. *)
Lemma increase_plus_one_zero (increase : num) :
  is_zero (num_add binary64 increase (PInt 1)) = true
  <-> (val increase == -1)%Q.
Proof.
  destruct increase as [z|q]; cbn [num_add is_zero val to_float].
  - rewrite Z.eqb_eq. unfold Qeq. cbn. lia.
  - rewrite Qeq_bool_iff, binary64_zero_iff.
    assert (E : (binary64 (inject_Z 1) == 1)%Q) by reflexivity.
    rewrite E. split; intros H; lra.
Qed.

Lemma flippid_armor_two (round : Q -> Q) (b i : num) (check : bool) :
  flippid_armor round [b; i] check
  = if is_zero (num_add round i (PInt 1)) then Raise ZeroDivisionError
    else Ok (num_mul round
               (num_mul round
                  (PFloat (quotient round b (num_add round i (PInt 1))))
                  (num_add round (num_add round i (PInt 1))
                     (if check then float_lit round 0.4
                      else float_lit round 0.2)))
               (float_lit round 1.2)).
Proof.
  unfold flippid_armor, truediv. cbn [List.length Nat.eqb bind].
  destruct (is_zero _); destruct check; reflexivity.
Qed.

Lemma flippid_armor_first (round : Q -> Q) (x : num) (rest : list num)
      (check : bool) :
  List.length rest <> 1%nat ->
  flippid_armor round (x :: rest) check
  = Ok (num_mul round
          (num_mul round (PFloat (quotient round x (PInt 1)))
             (num_add round (PInt 1)
                (if check then float_lit round 0.4 else float_lit round 0.2)))
          (float_lit round 1.2)).
Proof.
  intros H. unfold flippid_armor, truediv.
  assert (E : Nat.eqb (List.length (x :: rest)) 2 = false)
    by (apply Nat.eqb_neq; cbn [List.length]; lia).
  rewrite E. cbn [index nth_error bind num_add Z.add is_zero Z.eqb].
  destruct check; reflexivity.
Qed.


(** The second physical number, or 0: the increase of [flippid_mart]. *)
Lemma flippid_mart_unfold (round : Q -> Q) (numbers : weapon_numbers)
      (atk dmg : num) (speeds rest : list num) :
  speed numbers = atk :: speeds -> physical numbers = dmg :: rest ->
  flippid_mart round numbers
  = let increase := nth 0 rest (PInt 0) in
    let ele := match elemental numbers with
               | [] => PInt 0
               | _ => py_sum round (elemental numbers)
               end in
    if is_zero (num_add round increase (PInt 1)) then Raise ZeroDivisionError
    else
      let pdps :=
        num_mul round
          (num_mul round
             (num_mul round
                (PFloat (quotient round dmg (num_add round increase (PInt 1))))
                (num_add round (num_add round increase (PInt 1))
                   (float_lit round 0.4)))
             (float_lit round 1.2)) atk in
      Ok (pdps, num_mul round ele atk,
          num_add round (num_mul round ele atk) pdps).
Proof.
  intros Hs Hp. unfold flippid_mart, truediv. rewrite Hs, Hp.
  destruct rest as [|i rest]; cbn [index nth_error bind List.length Nat.ltb
                                     Nat.leb nth];
    destruct (is_zero _); reflexivity.
Qed.

(** X6.  [flippid_mart] raises IndexError exactly when the speed bucket or
    the physical bucket is empty, whatever the elemental bucket holds; it
    raises ZeroDivisionError exactly when both have a value and the second
    physical number is -1; it never raises ValueError; in every other case
    it returns the three results. *)
Theorem flippid_mart_errors (numbers : weapon_numbers) :
  (flippid_mart binary64 numbers = Raise IndexError
   <-> speed numbers = [] \/ physical numbers = [])
  /\ (flippid_mart binary64 numbers = Raise ZeroDivisionError
      <-> speed numbers <> [] /\ physical numbers <> []
          /\ (val (nth 1 (physical numbers) (PInt 0)) == -1)%Q)
  /\ flippid_mart binary64 numbers <> Raise ValueError.
Proof.
  destruct (speed numbers) as [|atk speeds] eqn:Hs.
  { assert (E : flippid_mart binary64 numbers = Raise IndexError)
      by (unfold flippid_mart; rewrite Hs; reflexivity).
    rewrite E. repeat split; try (intros; discriminate); auto.
    intros (H & _). contradiction. }
  destruct (physical numbers) as [|dmg rest] eqn:Hp.
  { assert (E : flippid_mart binary64 numbers = Raise IndexError)
      by (unfold flippid_mart; rewrite Hs, Hp; reflexivity).
    rewrite E. repeat split; try (intros; discriminate); auto.
    intros (_ & H & _). contradiction. }
  rewrite (flippid_mart_unfold binary64 numbers atk dmg speeds rest Hs Hp).
  cbn zeta. change (nth 1 (dmg :: rest) (PInt 0)) with (nth 0 rest (PInt 0)).
  pose proof (increase_plus_one_zero (nth 0 rest (PInt 0))) as Hz.
  destruct (is_zero (num_add binary64 (nth 0 rest (PInt 0)) (PInt 1))).
  - repeat split; try (intros; discriminate).
    + intros [H | H]; discriminate H.
    + apply Hz. reflexivity.
  - repeat split; try (intros; discriminate).
    + intros [H | H]; discriminate H.
    + intros (_ & _ & H). apply Hz in H. discriminate H.
Qed.

(** X7.  The physical part of [flippid_mart] is the armor formula with the
    factor 0.4: when the physical bucket has at most two numbers and the
    speed bucket has a first value, the weapon evaluator fails as
    [flippid_armor] fails on the physical bucket with check true, and
    otherwise returns that armor result times the speed as pDPS, the
    elemental sum times the speed as eDPS, and their sum. *)
Theorem mart_is_armor_times_speed (round : Q -> Q) (numbers : weapon_numbers)
        (atk : num) (speeds : list num) :
  speed numbers = atk :: speeds ->
  (List.length (physical numbers) <= 2)%nat ->
  flippid_mart round numbers
  = (r <- flippid_armor round (physical numbers) true;;
     let ele := match elemental numbers with
                | [] => PInt 0
                | _ => py_sum round (elemental numbers)
                end in
     Ok (num_mul round r atk, num_mul round ele atk,
         num_add round (num_mul round ele atk) (num_mul round r atk))).
Proof.
  intros Hs Hl.
  destruct (physical numbers) as [|dmg [|i [|z rest]]] eqn:Hp.
  - unfold flippid_mart. rewrite Hs, Hp. reflexivity.
  - rewrite (flippid_mart_unfold round numbers atk dmg speeds [] Hs Hp).
    rewrite (flippid_armor_first round dmg [] true) by (cbn; lia).
    reflexivity.
  - rewrite (flippid_mart_unfold round numbers atk dmg speeds [i] Hs Hp).
    rewrite (flippid_armor_two round dmg i true). cbn [nth].
    destruct (is_zero _); reflexivity.
  - cbn [List.length] in Hl. lia.
Qed.

Lemma mart_is_armor_times_speed_witness :
  flippid_mart binary64
    {| physical := [PFloat 15; PFloat 0.5]; elemental := [PFloat 4];
       speed := [PFloat 1.5] |}
  = (r <- flippid_armor binary64 [PFloat 15; PFloat 0.5] true;;
     Ok (num_mul binary64 r (PFloat 1.5),
         num_mul binary64 (py_sum binary64 [PFloat 4]) (PFloat 1.5),
         num_add binary64
           (num_mul binary64 (py_sum binary64 [PFloat 4]) (PFloat 1.5))
           (num_mul binary64 r (PFloat 1.5)))).
Proof.
  apply (mart_is_armor_times_speed binary64
           {| physical := [PFloat 15; PFloat 0.5]; elemental := [PFloat 4];
              speed := [PFloat 1.5] |} (PFloat 1.5) []).
  - reflexivity.
  - cbn. lia.
Defined.

(** ** The numbers of the armor path *)














(** ** Splitting the block into token lines *)

Lemma split_ws_cons (c : ascii) (r : string) :
  split_ws (String c r)
  = if is_space c then split_ws r
    else if head_space r then String c "" :: split_ws r
    else match split_ws r with
         | w :: ws => String c w :: ws
         | [] => [String c ""]
         end.
Proof. destruct r; reflexivity. Qed.

Lemma split_ws_head (c : ascii) (r : string) :
  is_space c = false -> has_tokens (split_ws (String c r)) = true.
Proof.
  intros H. rewrite split_ws_cons, H.
  destruct (head_space r); [reflexivity|].
  destruct (split_ws r); reflexivity.
Qed.

Lemma split_ws_tokens (s : string) :
  Forall (fun t => nonempty t = true /\ any_char is_space t = false)
         (split_ws s).
Proof.
  induction s as [|c r IH]; [constructor|].
  rewrite split_ws_cons.
  destruct (is_space c) eqn:Hc; [exact IH|].
  assert (H1 : nonempty (String c "") = true
               /\ any_char is_space (String c "") = false)
    by (cbn; rewrite Hc; auto).
  destruct (head_space r); [constructor; assumption|].
  destruct (split_ws r) as [|w ws]; [constructor; [exact H1|constructor]|].
  inversion IH as [|? ? [_ Hw] Hws]; subst.
  constructor; [|exact Hws]. cbn. rewrite Hc, Hw. auto.
Qed.

Lemma split_ws_lstrip (s : string) : split_ws (lstrip s) = split_ws s.
Proof.
  induction s as [|c r IH]; [reflexivity|].
  cbn [lstrip]. destruct (is_space c) eqn:Hc; [|reflexivity].
  rewrite IH, split_ws_cons, Hc. reflexivity.
Qed.

Lemma lstrip_head (s : string) : lstrip s = "" \/ head_space (lstrip s) = false.
Proof.
  induction s as [|c r IH]; [left; reflexivity|].
  cbn [lstrip]. destruct (is_space c) eqn:Hc; [exact IH|].
  right. cbn. exact Hc.
Qed.

Lemma rstrip_cons (c : ascii) (r : string) :
  rstrip (String c r)
  = if nonempty (rstrip r) || negb (is_space c)
    then String c (rstrip r) else "".
Proof.
  cbn [rstrip]. destruct (rstrip r); destruct (is_space c); reflexivity.
Qed.

Lemma rstrip_empty (s : string) :
  rstrip s = "" -> head_space s = true /\ split_ws s = [].
Proof.
  induction s as [|c r IH]; [auto|].
  rewrite rstrip_cons.
  destruct (nonempty (rstrip r) || negb (is_space c)) eqn:E;
    [discriminate|].
  intros _. apply orb_false_iff in E as [E1 E2].
  apply negb_false_iff in E2.
  assert (Hr : rstrip r = "") by (destruct (rstrip r); [reflexivity|discriminate]).
  destruct (IH Hr) as [_ Hs].
  split; [exact E2|]. rewrite split_ws_cons, E2. exact Hs.
Qed.

Lemma head_space_rstrip (s : string) : head_space (rstrip s) = head_space s.
Proof.
  destruct s as [|c r]; [reflexivity|].
  rewrite rstrip_cons.
  destruct (nonempty (rstrip r) || negb (is_space c)) eqn:E; [reflexivity|].
  apply orb_false_iff in E as [_ E2]. apply negb_false_iff in E2.
  cbn. symmetry. exact E2.
Qed.

Lemma split_ws_rstrip (s : string) : split_ws (rstrip s) = split_ws s.
Proof.
  induction s as [|c r IH]; [reflexivity|].
  rewrite rstrip_cons.
  destruct (nonempty (rstrip r) || negb (is_space c)) eqn:E.
  - rewrite !split_ws_cons, head_space_rstrip, IH. reflexivity.
  - apply orb_false_iff in E as [E1 E2]. apply negb_false_iff in E2.
    assert (Hr : rstrip r = "")
      by (destruct (rstrip r); [reflexivity|discriminate]).
    destruct (rstrip_empty r Hr) as [_ Hs].
    rewrite split_ws_cons, E2, Hs. reflexivity.
Qed.

Lemma split_ws_strip (s : string) : split_ws (strip s) = split_ws s.
Proof. unfold strip. rewrite split_ws_rstrip. apply split_ws_lstrip. Qed.

Lemma nonempty_strip (s : string) :
  nonempty (strip s) = has_tokens (split_ws s).
Proof.
  rewrite <- split_ws_strip. unfold strip.
  destruct (rstrip (lstrip s)) as [|c r] eqn:E; [reflexivity|].
  assert (Hc : is_space c = false).
  { pose proof (head_space_rstrip (lstrip s)) as H. rewrite E in H.
    cbn [head_space] in H. rewrite H.
    destruct (lstrip_head s) as [H0 | H0]; [|exact H0].
    rewrite H0 in E. discriminate E. }
  rewrite split_ws_head by exact Hc. reflexivity.
Qed.

Lemma token_lines_filter (lines : list string) :
  map (fun line => split_ws (strip line))
      (filter (fun line => nonempty (strip line)) lines)
  = filter has_tokens (map split_ws lines).
Proof.
  induction lines as [|l lines IH]; [reflexivity|].
  cbn [filter map]. rewrite nonempty_strip.
  destruct (has_tokens (split_ws l)); cbn [map]; rewrite IH;
    [rewrite split_ws_strip|]; reflexivity.
Qed.

Lemma token_lines_split (data_block : string) :
  token_lines data_block
  = filter has_tokens (map split_ws (split_on newline data_block)).
Proof. unfold token_lines. apply token_lines_filter. Qed.

(** X10.  Stripping a line before splitting it changes nothing: the token
    lines of a block are the results of [split()] on the lines between
    newlines, without the empty results, in order. *)
Theorem token_lines_without_strip (data_block : string) :
  token_lines data_block
  = filter has_tokens (map split_ws (split_on newline data_block)).
Proof. unfold token_lines. apply token_lines_filter. Qed.

(** X11.  No token line is empty, and no token is empty or has a
    whitespace character in it (a carriage return before the newline, for
    one, never ends up in a token). *)
Theorem tokens_are_words (data_block : string) (line : list string) :
  In line (token_lines data_block) ->
  line <> []
  /\ forall t, In t line -> t <> "" /\ any_char is_space t = false.
Proof.
  rewrite token_lines_split. intros H.
  apply filter_In in H as [Hin Hne].
  split; [intros E; rewrite E in Hne; discriminate Hne|].
  apply in_map_iff in Hin as (l & <- & _).
  intros t Ht. pose proof (split_ws_tokens l) as Hall.
  rewrite Forall_forall in Hall. destruct (Hall t Ht) as [H1 H2].
  split; [intros E; rewrite E in H1; discriminate H1 | exact H2].
Qed.

Lemma tokens_are_words_witness :
  ["Evasion"; "Rating:"; "150"; "(+20%)"] <> []
  /\ forall t, In t ["Evasion"; "Rating:"; "150"; "(+20%)"] ->
               t <> "" /\ any_char is_space t = false.
Proof.
  apply (tokens_are_words evasion_block). left. reflexivity.
Defined.

Lemma split_on_nonnil (sep : ascii) (s : string) : split_on sep s <> [].
Proof.
  destruct s as [|c r]; [discriminate|]. cbn [split_on].
  destruct (Ascii.eqb c sep); [discriminate|].
  destruct (split_on sep r); discriminate.
Qed.

Lemma split_on_app (sep : ascii) (a b : string) :
  split_on sep (a ++ String sep b)
  = (split_on sep a ++ split_on sep b)%list.
Proof.
  induction a as [|c a IH].
  - cbn. rewrite Ascii.eqb_refl. reflexivity.
  - cbn [append split_on]. destruct (Ascii.eqb c sep).
    + rewrite IH. reflexivity.
    + rewrite IH. pose proof (split_on_nonnil sep a) as Hn.
      destruct (split_on sep a) as [|w ws]; [contradiction|reflexivity].
Qed.

(** X12.  A block made of two parts joined by a newline has the token
    lines of the first part followed by those of the second, and each of
    its four flags is set when the flag of one of the parts is: more lines
    never turn a flag off. *)
Theorem block_of_two_parts (a b : string) :
  token_lines (a ++ String newline b) = (token_lines a ++ token_lines b)%list
  /\ esBool (snd (extract_stats (a ++ String newline b)))
     = esBool (snd (extract_stats a)) || esBool (snd (extract_stats b))
  /\ chestBool (snd (extract_stats (a ++ String newline b)))
     = chestBool (snd (extract_stats a)) || chestBool (snd (extract_stats b))
  /\ martBool (snd (extract_stats (a ++ String newline b)))
     = martBool (snd (extract_stats a)) || martBool (snd (extract_stats b))
  /\ eleBool (snd (extract_stats (a ++ String newline b)))
     = eleBool (snd (extract_stats a)) || eleBool (snd (extract_stats b)).
Proof.
  assert (E : token_lines (a ++ String newline b)
              = (token_lines a ++ token_lines b)%list).
  { rewrite !token_lines_split, split_on_app, map_app, filter_app.
    reflexivity. }
  split; [exact E|].
  unfold extract_stats. cbn [snd classify esBool chestBool martBool eleBool].
  unfold has_token. rewrite E, !existsb_app. repeat split.
Qed.

(** ** The weapon extractor *)








(** *** Lines with "Elemental" and a hyphen *)











(** *** Lines with a range *)





(** *** Lines without a hyphen *)





(** ** The clipboard watcher *)

Lemma poll_returns (last : string) (schedule : list user) (text : string)
      (rest : list user) :
  poll last last schedule = Returned text rest
  <-> exists before,
        schedule = (before ++ Copy text :: rest)%list
        /\ Forall (quiet last) before /\ text <> last.
Proof.
  split.
  - revert text rest. induction schedule as [|u s IH]; intros text rest H.
    + discriminate H.
    + destruct u as [|t|]; cbn [poll paste] in H.
      * rewrite String.eqb_refl in H.
        destruct (IH _ _ H) as (before & -> & Hq & Hn).
        exists (Nothing :: before). repeat split; try assumption.
        constructor; [left; reflexivity|exact Hq].
      * destruct (String.eqb_spec t last) as [E|E].
        -- subst t. destruct (IH _ _ H) as (before & -> & Hq & Hn).
           exists (Copy last :: before). repeat split; try assumption.
           constructor; [right; reflexivity|exact Hq].
        -- injection H as -> ->. exists []. repeat split; auto.
      * discriminate H.
  - intros (before & -> & Hq & Hn).
    induction Hq as [|u before [-> | ->] _ IH]; cbn [app poll paste].
    + destruct (String.eqb_spec text last) as [E|E];
        [contradiction|reflexivity].
    + rewrite String.eqb_refl. exact IH.
    + rewrite String.eqb_refl. exact IH.
Qed.

(** X17.  [monitor_clipboard] returns a text exactly when the user, after
    the first read, did nothing or copied again the text of that first read
    for some polls, and then copied a different text: that text is what it
    returns, with the rest of the schedule untouched.  So the text it finds
    at its first read is never returned, even when the user has just
    copied it, and an interrupt comes before any text that follows it. *)
Theorem monitor_returns (clipboard : string) (schedule : list user)
        (text : string) (rest : list user) :
  monitor_clipboard clipboard schedule = Returned text rest
  <-> exists u before,
        schedule = (u :: before ++ Copy text :: rest)%list
        /\ u <> CtrlC
        /\ Forall (quiet (paste clipboard u)) before
        /\ text <> paste clipboard u.
Proof.
  split.
  - destruct schedule as [|u s]; [discriminate|].
    destruct u as [|t|]; cbn [monitor_clipboard]; intros H;
      try discriminate H;
      apply poll_returns in H as (before & -> & Hq & Hn);
      eexists _, before; repeat split; try assumption; discriminate.
  - intros (u & before & -> & Hu & Hq & Hn).
    destruct u as [|t|]; [| |contradiction]; cbn [monitor_clipboard];
      apply poll_returns; exists before; auto.
Qed.

Lemma io_bind_head {A B : Type} (o : output) (out : list output) (a : A)
      (k : A -> io B) :
  exists out' r, io_bind (o :: out, Ok a) k = (o :: out', r).
Proof. unfold io_bind. destruct (k a) as [out1 r]. eexists _, _. reflexivity. Qed.

Lemma cycle_starts_waiting (round : Q -> Q) (data_block : string) :
  cycle round data_block = Waiting :: after_monitor round data_block.
Proof.
  unfold after_monitor, cycle, main_try.
  assert (E : extract_stats_io data_block
              = ([Waiting; ExtractedBlock data_block],
                 Ok (extract_stats data_block))) by reflexivity.
  rewrite E.
  match goal with
  | |- context [io_bind (?o :: ?out, Ok ?a) ?k] =>
      destruct (io_bind_head o out a k) as (out' & r & E'); rewrite E'
  end.
  destruct r; reflexivity.
Qed.

Lemma run_polling_idle (round : Q -> Q) (n : nat) (schedule : list user) :
  run round (Polling "") "" (repeat Nothing n ++ schedule)
  = run round (Polling "") "" schedule.
Proof. induction n as [|n IH]; [reflexivity|exact IH]. Qed.

Lemma run_one_copy (round : Q -> Q) (n : nat) (text : string)
      (schedule : list user) :
  text <> "" ->
  run round Reading ""
      ((Nothing :: repeat Nothing n ++ [Copy text]) ++ schedule)
  = (cycle round text ++ run round Reading "" schedule)%list.
Proof.
  intros Ht. cbn [app run paste]. rewrite <- app_assoc, run_polling_idle.
  cbn [app run paste clear_clipboard].
  destruct (String.eqb_spec text "") as [E|E]; [contradiction|].
  rewrite cycle_starts_waiting. reflexivity.
Qed.

Lemma run_copies (round : Q -> Q) (waits : list (nat * string))
      (schedule : list user) :
  Forall (fun w => snd w <> "") waits ->
  run round Reading "" (copies waits ++ schedule)
  = (List.concat (map (fun w => cycle round (snd w)) waits)
     ++ run round Reading "" schedule)%list.
Proof.
  intros H. induction H as [|[n t] waits Ht _ IH]; [reflexivity|].
  change (copies ((n, t) :: waits))
    with ((Nothing :: repeat Nothing n ++ [Copy t]) ++ copies waits)%list.
  rewrite <- app_assoc, (run_one_copy round n t) by exact Ht.
  rewrite IH. cbn [map List.concat snd]. rewrite <- app_assoc. reflexivity.
Qed.

(** X18.  With the clipboard empty at the start and a user who copies one
    non-empty text per wait, after any number of polls, the loop on the
    clipboard prints what [main] prints for these texts in turn: because
    the script empties the clipboard after each text, a text is processed
    each time it is copied, also when the same text is copied twice in a
    row.  An interrupt during the last wait ends the run as in [main]. *)
Theorem run_is_main (round : Q -> Q) (waits : list (nat * string)) :
  Forall (fun w => snd w <> "") waits ->
  run round Reading "" (copies waits ++ [Nothing])
  = main round (map (fun w => Clipboard (snd w)) waits)
  /\ forall (n : nat) (rest : list user),
       run round Reading ""
           (copies waits ++ Nothing :: repeat Nothing n ++ CtrlC :: rest)
       = main round (map (fun w => Clipboard (snd w)) waits
                     ++ [KeyboardInterrupt]).
Proof.
  intros H.
  assert (M : forall rest,
             main round (map (fun w => Clipboard (snd w)) waits ++ rest)
             = (List.concat (map (fun w => cycle round (snd w)) waits)
                ++ main round rest)%list).
  { intros rest. rewrite <- (map_map snd Clipboard), main_clipboards.
    rewrite map_map. reflexivity. }
  split.
  - rewrite run_copies by exact H.
    pose proof (M []) as M0. rewrite app_nil_r in M0. rewrite M0.
    reflexivity.
  - intros n rest. rewrite run_copies by exact H. rewrite M.
    f_equal. cbn [run paste]. rewrite run_polling_idle. reflexivity.
Qed.

Lemma run_is_main_witness :
  run binary64 Reading ""
      (copies [(2%nat, evasion_block); (0%nat, evasion_block)] ++ [Nothing])
  = main binary64
      (map (fun w => Clipboard (snd w))
           [(2%nat, evasion_block); (0%nat, evasion_block)])
  /\ forall (n : nat) (rest : list user),
       run binary64 Reading ""
           (copies [(2%nat, evasion_block); (0%nat, evasion_block)]
            ++ Nothing :: repeat Nothing n ++ CtrlC :: rest)
       = main binary64
           (map (fun w => Clipboard (snd w))
                [(2%nat, evasion_block); (0%nat, evasion_block)]
            ++ [KeyboardInterrupt]).
Proof.
  apply (run_is_main binary64 [(2%nat, evasion_block); (0%nat, evasion_block)]).
  repeat constructor; discriminate.
Defined.
